(** * BorderRelief ML service: the handlers of [apps/ml/main.py]

    A shallow embedding of the four FastAPI handlers of the service and of
    the request schemas they are declared with, followed by the properties
    of the keyword classifier and of the route placeholder.

    Conventions.
    - A Python [str] is a [string]; a character stands for the code point
      of the same number (0..255).  [lower] is [str.lower] on that range.
    - A Python value that is sent or received as JSON is a [value].  A
      [dict] literal is an association list in the order it is written.
    - A [float] literal is kept as the decimal fraction written in the
      source ([0.98] is [98 # 100]); no arithmetic is done on it.
    - A handler is a computation over the process state [World], of which
      only the standard output matters here. *)

From Stdlib Require Import String Ascii List Bool Arith ZArith QArith Lia.
From Stdlib Require Import Permutation.
Import ListNotations.

Local Close Scope Q_scope.
Local Open Scope nat_scope.
Local Open Scope string_scope.
Local Open Scope list_scope.

(** ** Python strings *)

Module Str.

(** Upper-case letters below code point 256: [A-Z], and the Latin-1
    letters U+00C0..U+00DE apart from the multiplication sign U+00D7. *)
Definition is_upper (n : nat) : bool :=
  ((65 <=? n)%nat && (n <=? 90)%nat)
  || ((192 <=? n)%nat && (n <=? 222)%nat && negb (n =? 215)%nat).

(** The lower-case letter of each of them is 32 code points further. *)
Definition lower_char (c : ascii) : ascii :=
  let n := nat_of_ascii c in
  if is_upper n then ascii_of_nat (n + 32) else c.

(** [s.lower()] *)
Fixpoint lower (s : string) : string :=
  match s with
  | EmptyString => EmptyString
  | String c s' => String (lower_char c) (lower s')
  end.

(** [s.startswith(w)] *)
Fixpoint startswith (w s : string) : bool :=
  match w, s with
  | EmptyString, _ => true
  | String a w', String b s' => Ascii.eqb a b && startswith w' s'
  | String _ _, EmptyString => false
  end.

(** [w in s]: [w] occurs in [s] as a contiguous run of characters. *)
Fixpoint contains (w s : string) : bool :=
  startswith w s
  || match s with
     | EmptyString => false
     | String _ s' => contains w s'
     end.

End Str.

(** [any(p(w) for w in ws)] *)
Definition any {A : Type} (p : A -> bool) (ws : list A) : bool := existsb p ws.

(** ** Python values and dict literals *)

#[local] Set Warnings "-register-all".

Inductive value : Type :=
| VNone
| VBool (b : bool)
| VInt (z : Z)
| VFloat (q : Q)
| VStr (s : string)
| VList (l : list value)
| VDict (d : list (string * value)).

Definition dict : Type := list (string * value).

(** [d.get(k)] *)
Fixpoint dict_get (k : string) (d : dict) : option value :=
  match d with
  | [] => None
  | (k', v) :: d' => if String.eqb k k' then Some v else dict_get k d'
  end.

(** ** Handlers as computations over the process state *)

Record World : Type := mkWorld {
  stdout : list string   (* one entry per [print] call, oldest first *)
}.

Definition IO (A : Type) : Type := World -> A * World.

Definition ret {A : Type} (a : A) : IO A := fun w => (a, w).

Definition bind {A B : Type} (m : IO A) (k : A -> IO B) : IO B :=
  fun w => let (a, w') := m w in k a w'.

Notation "x <- m ;; k" := (bind m (fun x => k))
  (at level 61, m at next level, right associativity).

(** [print(s)] *)
Definition print (s : string) : IO unit :=
  fun w => (tt, mkWorld (stdout w ++ [s])).

(** What a handler returns, and the state it leaves. *)
Definition returned {A : Type} (m : IO A) (w : World) : A := fst (m w).
Definition final {A : Type} (m : IO A) (w : World) : World := snd (m w).

(** ** Schemas *)

Record PredictionRequest : Type := {
  text_description : string;
  image_base64 : option string
}.

Record FeedbackRequest : Type := {
  item_id : string;
  actual_category : string;
  correct : bool
}.

Record RouteRequest : Type := {
  locations : list (list value);
  constraints : dict
}.

(** ** Endpoints *)

Definition health : IO dict :=
  ret [("status", VStr "ok"); ("version", VStr "1.0.0")].

Definition WATER_KEYWORDS : list string := ["water"; "bottle"; "drink"].
Definition MEDS_KEYWORDS : list string := ["pill"; "drug"; "medicine"; "bandage"].

Definition predict_category (req : PredictionRequest) : IO dict :=
  let desc := Str.lower (text_description req) in
  if any (fun w => Str.contains w desc) WATER_KEYWORDS then
    ret [("category", VStr "WATER");
         ("confidence", VFloat (98 # 100));
         ("explanation", VStr "Detected keyword 'water' in description.");
         ("risk_flag", VBool false)]
  else if any (fun w => Str.contains w desc) MEDS_KEYWORDS then
    ret [("category", VStr "MEDS");
         ("confidence", VFloat (92 # 100));
         ("explanation", VStr "Detected medical terminology.");
         ("risk_flag", VBool true);
         ("risk_reason", VStr "Medical items require expiry check.")]
  else
    ret [("category", VStr "OTHER");
         ("confidence", VFloat (45 # 100));
         ("explanation",
          VStr "No strong keywords found. Manual review recommended.");
         ("risk_flag", VBool false)].

Section Feedback.

(** [str(req)] of a request object is the schema library's rendering of
    the model; the handler only passes it on. *)
Variable model_str : FeedbackRequest -> string.

Definition log_feedback (req : FeedbackRequest) : IO dict :=
  _ <- print ("Feedback Received: " ++ model_str req) ;;
  ret [("status", VStr "logged")].

End Feedback.

Definition optimize_route (req : RouteRequest) : IO dict :=
  ret [("route_id", VStr "route-123");
       ("waypoints_order", VList [VInt 0; VInt 2; VInt 1; VInt 3]);
       ("total_distance_km", VFloat (452 # 10));
       ("estimated_time_min", VInt 120);
       ("explanation",
        VStr "Route optimized to avoid Sector 4 (Red Zone).")].

(** ** The request boundary

    Requests are validated against the schema of the handler's parameter
    by the web framework, which is not part of the service's source.  This
    module gives the boundary as the specification describes it. *)

Module Boundary.

(** Modelled from the spec: the only error kind, ValidationError, "a
    required field is missing or of the wrong type", reported with the
    offending field.  The validator itself is the framework's. *)
Inductive ValidationError : Type :=
| Missing (field : string)
| WrongType (field : string).

Definition Validated (A : Type) : Type := (list ValidationError + A)%type.

(** Modelled from the spec: a field of type text accepts a text value
    and nothing else ("fails with a validation error if
    [text_description] is missing or not text"). *)
Definition as_str (v : value) : option string :=
  match v with VStr s => Some s | _ => None end.

(** Modelled from the spec: [Optional[T]] accepts what [T] accepts, and
    the absent value. *)
Definition as_optional {A : Type} (p : value -> option A) (v : value)
  : option (option A) :=
  match v with
  | VNone => Some None
  | _ => option_map Some (p v)
  end.

(** Modelled from the spec: a [tuple] is read from a sequence, a
    [List[T]] from a sequence of what [T] accepts, a [dict] from a
    mapping of text to arbitrary values. *)
Definition as_tuple (v : value) : option (list value) :=
  match v with VList l => Some l | _ => None end.

Fixpoint all_some {A : Type} (l : list (option A)) : option (list A) :=
  match l with
  | [] => Some []
  | Some a :: l' => option_map (cons a) (all_some l')
  | None :: _ => None
  end.

Definition as_list {A : Type} (p : value -> option A) (v : value)
  : option (list A) :=
  match v with VList l => all_some (map p l) | _ => None end.

Definition as_dict (v : value) : option dict :=
  match v with VDict d => Some d | _ => None end.

(** Modelled from the spec: a field declared without a default is
    required; one declared with a default takes it when absent. *)
Definition field {A : Type} (name : string) (p : value -> option A)
    (default : option A) (body : dict) : Validated A :=
  match dict_get name body with
  | None =>
      match default with
      | Some a => inr a
      | None => inl [Missing name]
      end
  | Some v =>
      match p v with
      | Some a => inr a
      | None => inl [WrongType name]
      end
  end.

(** The errors of all fields are reported together. *)
Definition both {A B : Type} (x : Validated A) (y : Validated B)
  : Validated (A * B) :=
  match x, y with
  | inr a, inr b => inr (a, b)
  | inl e, inr _ => inl e
  | inr _, inl e => inl e
  | inl e1, inl e2 => inl (e1 ++ e2)
  end.

(** Modelled from the spec: [PredictionRequest] has [text_description]
    (text, required) and [image_base64] (text, optional); the schema
    class declares the latter with default [None]. *)
Definition parse_PredictionRequest (body : value)
  : Validated PredictionRequest :=
  match body with
  | VDict d =>
      match both (field "text_description" as_str None d)
                 (field "image_base64" (as_optional as_str) (Some None) d)
      with
      | inr (t, i) => inr {| text_description := t; image_base64 := i |}
      | inl e => inl e
      end
  | _ => inl [WrongType "body"]
  end.

(** Modelled from the spec: [RouteRequest] has [locations] (a sequence
    of tuples) and [constraints] (a mapping); the schema class declares
    both without a default. *)
Definition parse_RouteRequest (body : value) : Validated RouteRequest :=
  match body with
  | VDict d =>
      match both (field "locations" (as_list as_tuple) None d)
                 (field "constraints" as_dict None d)
      with
      | inr (l, c) => inr {| locations := l; constraints := c |}
      | inl e => inl e
      end
  | _ => inl [WrongType "body"]
  end.

Inductive Response : Type :=
| Ok (body : value)
| Unprocessable (errors : list ValidationError)
| ServerError.

Definition status_code (r : Response) : nat :=
  match r with
  | Ok _ => 200
  | Unprocessable _ => 422
  | ServerError => 500
  end.

(** Modelled from the spec: a request is "validated at the boundary
    before invoking handler logic"; a validation error is "surfaced
    directly to the caller as an HTTP client error", and a validated
    request gets the handler's result with status 200. *)
Definition serve {A : Type} (parse : value -> Validated A)
    (handler : A -> IO dict) (body : value) : IO Response :=
  match parse body with
  | inl errors => ret (Unprocessable errors)
  | inr req => r <- handler req ;; ret (Ok (VDict r))
  end.

(** [POST /predict/category] and [POST /optimize/route] *)
Definition post_predict_category : value -> IO Response :=
  serve parse_PredictionRequest predict_category.

Definition post_optimize_route : value -> IO Response :=
  serve parse_RouteRequest optimize_route.

(** The value of a field of a request body, if the body is an object
    that has it. *)
Definition body_field (name : string) (body : value) : option value :=
  match body with
  | VDict d => dict_get name d
  | _ => None
  end.

End Boundary.

(** ** Vocabulary of the properties *)

(** [desc] mentions the keyword [kw], whatever the case of its letters:
    some run of consecutive characters of [desc] is [kw] once put in
    lower case. *)
Definition mentions (kw desc : string) : Prop :=
  exists pre mid post,
    desc = (pre ++ mid ++ post)%string /\ Str.lower mid = kw.

Definition mentions_any (kws : list string) (desc : string) : Prop :=
  exists kw, In kw kws /\ mentions kw desc.

(** A JSON array of integers, read as a list. *)
Definition int_list (v : value) : option (list Z) :=
  Boundary.as_list (fun x => match x with VInt z => Some z | _ => None end) v.

(** The visiting order carried by a route result. *)
Definition waypoints_order (r : dict) : option (list Z) :=
  match dict_get "waypoints_order" r with
  | Some v => int_list v
  | None => None
  end.

(** The indices of a sequence of [n] locations, [range(n)]. *)
Definition indices (n : nat) : list Z := map Z.of_nat (seq 0 n).

(** The three answers of the classifier, as the handler writes them. *)
Definition WATER_RESULT : dict :=
  [("category", VStr "WATER");
   ("confidence", VFloat (98 # 100));
   ("explanation", VStr "Detected keyword 'water' in description.");
   ("risk_flag", VBool false)].

Definition MEDS_RESULT : dict :=
  [("category", VStr "MEDS");
   ("confidence", VFloat (92 # 100));
   ("explanation", VStr "Detected medical terminology.");
   ("risk_flag", VBool true);
   ("risk_reason", VStr "Medical items require expiry check.")].

Definition OTHER_RESULT : dict :=
  [("category", VStr "OTHER");
   ("confidence", VFloat (45 # 100));
   ("explanation",
    VStr "No strong keywords found. Manual review recommended.");
   ("risk_flag", VBool false)].

(** A process that has printed nothing yet, and one that has. *)
Definition quiet : World := mkWorld [].
Definition busy : World := mkWorld ["Feedback Received: earlier"].

(** ** The application

    The four routes registered on [app], each with the request object its
    handler is called with, and the service answering a sequence of
    calls one after the other in one process. *)

Inductive Call : Type :=
| GetHealth
| PostPredictCategory (req : PredictionRequest)
| PostMlFeedback (req : FeedbackRequest)
| PostOptimizeRoute (req : RouteRequest).

Section App.

Variable model_str : FeedbackRequest -> string.

Definition handle (c : Call) : IO dict :=
  match c with
  | GetHealth => health
  | PostPredictCategory req => predict_category req
  | PostMlFeedback req => log_feedback model_str req
  | PostOptimizeRoute req => optimize_route req
  end.

Fixpoint handle_all (cs : list Call) : IO (list dict) :=
  match cs with
  | [] => ret []
  | c :: cs' =>
      r <- handle c ;;
      rs <- handle_all cs' ;;
      ret (r :: rs)
  end.

End App.

(** The feedback requests among a sequence of calls, in order. *)
Fixpoint feedbacks (cs : list Call) : list FeedbackRequest :=
  match cs with
  | [] => []
  | PostMlFeedback req :: cs' => req :: feedbacks cs'
  | _ :: cs' => feedbacks cs'
  end.

(** Two characters are the same letter: equal, or one the lower case of
    the other.  Two descriptions are the same up to case when they are so
    character by character. *)
Definition same_letter (a b : ascii) : bool :=
  Ascii.eqb a b
  || Ascii.eqb (Str.lower_char a) b
  || Ascii.eqb a (Str.lower_char b).

Fixpoint same_up_to_case (s t : string) : bool :=
  match s, t with
  | EmptyString, EmptyString => true
  | String a s', String b t' => same_letter a b && same_up_to_case s' t'
  | _, _ => false
  end.

(** The category of an answer of the classifier. *)
Definition category_of (r : dict) : option value := dict_get "category" r.

(** ** Substring test and lower case *)

Section StrFacts.

Import Str.

Lemma startswith_spec (w s : string) :
  startswith w s = true <-> exists t, s = (w ++ t)%string.
Proof.
  revert s; induction w as [|a w IH]; intros s; simpl.
  - split; [intros _; now exists s | reflexivity].
  - destruct s as [|b s].
    + split; [discriminate | intros [t H]; discriminate H].
    + rewrite andb_true_iff, Ascii.eqb_eq, IH. split.
      * intros [-> [t ->]]. now exists t.
      * intros [t H]. injection H as -> ->. split; [reflexivity | now exists t].
Qed.

Lemma contains_spec (w s : string) :
  contains w s = true <-> exists pre post, s = (pre ++ w ++ post)%string.
Proof.
  induction s as [|c s IH]; simpl; rewrite orb_true_iff.
  - split.
    + intros [H | H]; [| discriminate].
      apply startswith_spec in H as [t H]. now exists "", t.
    + intros [pre [post H]]. left. apply startswith_spec.
      destruct pre; [now exists post | discriminate H].
  - rewrite IH, startswith_spec. split.
    + intros [[t H] | [pre [post H]]].
      * now exists "", t.
      * exists (String c pre), post. simpl. now rewrite H.
    + intros [[|d pre] [post H]]; simpl in H.
      * left. now exists post.
      * right. injection H as _ H. now exists pre, post.
Qed.

Lemma lower_app (a b : string) :
  lower (a ++ b) = (lower a ++ lower b)%string.
Proof. induction a as [|c a IH]; simpl; [reflexivity | now rewrite IH]. Qed.

Lemma lower_length (s : string) : String.length (lower s) = String.length s.
Proof. induction s as [|c s IH]; simpl; [reflexivity | now rewrite IH]. Qed.

(** [lower] works character by character, so a split of the lowered
    string comes from a split of the string. *)
Lemma lower_split (a b s : string) :
  lower s = (a ++ b)%string ->
  exists x y, s = (x ++ y)%string /\ lower x = a /\ lower y = b.
Proof.
  revert s; induction a as [|c a IH]; intros s H; simpl in H.
  - now exists "", s.
  - destruct s as [|d s]; [discriminate H |].
    simpl in H. injection H as Hc H.
    destruct (IH s H) as [x [y [-> [Hx Hy]]]].
    exists (String d x), y. simpl. now rewrite Hc, Hx.
Qed.

(** The handler's test [kw in desc.lower()] is the case-insensitive
    mention of [kw]. *)
Lemma contains_lower_iff (kw desc : string) :
  contains kw (lower desc) = true <-> mentions kw desc.
Proof.
  rewrite contains_spec. split.
  - intros [pre [post H]].
    apply lower_split in H as [x [y [-> [_ H]]]].
    apply lower_split in H as [m [z [-> [Hm _]]]].
    now exists x, m, z.
  - intros [pre [mid [post [-> Hm]]]].
    exists (lower pre), (lower post).
    now rewrite !lower_app, Hm.
Qed.

Lemma any_contains_iff (kws : list string) (desc : string) :
  any (fun w => contains w (lower desc)) kws = true <-> mentions_any kws desc.
Proof.
  unfold any, mentions_any. rewrite existsb_exists.
  split; intros [kw [Hin H]]; exists kw; (split; [exact Hin |]);
    now apply contains_lower_iff.
Qed.

Lemma any_contains_false (kws : list string) (desc : string) :
  ~ mentions_any kws desc ->
  any (fun w => contains w (lower desc)) kws = false.
Proof.
  intros H. apply not_true_is_false. intros Hany.
  now apply H, any_contains_iff.
Qed.

End StrFacts.

(** ** The classifier *)

Section Classifier.

Variable req : PredictionRequest.
Variable w : World.

Let desc := text_description req.

Lemma predict_category_water :
  mentions_any WATER_KEYWORDS desc ->
  predict_category req w = (WATER_RESULT, w).
Proof.
  intros H. apply any_contains_iff in H.
  unfold predict_category. fold desc. now rewrite H.
Qed.

Lemma predict_category_meds :
  ~ mentions_any WATER_KEYWORDS desc ->
  mentions_any MEDS_KEYWORDS desc ->
  predict_category req w = (MEDS_RESULT, w).
Proof.
  intros Hw Hm. apply any_contains_false in Hw. apply any_contains_iff in Hm.
  unfold predict_category. fold desc. now rewrite Hw, Hm.
Qed.

Lemma predict_category_other :
  ~ mentions_any WATER_KEYWORDS desc ->
  ~ mentions_any MEDS_KEYWORDS desc ->
  predict_category req w = (OTHER_RESULT, w).
Proof.
  intros Hw Hm. apply any_contains_false in Hw, Hm.
  unfold predict_category. fold desc. now rewrite Hw, Hm.
Qed.

(** The handler gives one of its three answers and leaves the process
    state as it found it. *)
Lemma predict_category_cases :
  predict_category req w = (WATER_RESULT, w)
  \/ predict_category req w = (MEDS_RESULT, w)
  \/ predict_category req w = (OTHER_RESULT, w).
Proof.
  unfold predict_category.
  destruct (any _ WATER_KEYWORDS); [now left |].
  destruct (any _ MEDS_KEYWORDS); [right; now left | right; now right].
Qed.

End Classifier.

(** C1.  A description that mentions a WATER keyword ("water", "bottle"
    or "drink", in any case) and also a MEDS keyword ("pill", "drug",
    "medicine" or "bandage") is classified WATER with confidence 0.98:
    the WATER test comes first. *)
Theorem predict_category_water_before_meds
    (req : PredictionRequest) (w : World) :
  mentions_any ["water"; "bottle"; "drink"] (text_description req) ->
  mentions_any ["pill"; "drug"; "medicine"; "bandage"] (text_description req) ->
  let r := returned (predict_category req) w in
  dict_get "category" r = Some (VStr "WATER")
  /\ dict_get "confidence" r = Some (VFloat (98 # 100)).
Proof.
  intros Hw _ r. subst r. unfold returned.
  rewrite predict_category_water by exact Hw. split; reflexivity.
Qed.

Lemma predict_category_water_before_meds_witness :
  let req := {| text_description := "2L bottle of medicine";
                image_base64 := None |} in
  let r := returned (predict_category req) quiet in
  dict_get "category" r = Some (VStr "WATER")
  /\ dict_get "confidence" r = Some (VFloat (98 # 100)).
Proof.
  apply (predict_category_water_before_meds
           {| text_description := "2L bottle of medicine";
              image_base64 := None |} quiet).
  - exists "bottle". split; [simpl; tauto |].
    exists "2L ", "bottle", " of medicine". split; reflexivity.
  - exists "medicine". split; [simpl; tauto |].
    exists "2L bottle of ", "medicine", "". split; reflexivity.
Defined.

(** C4.  A description that mentions "water", "bottle" or "drink" (in any
    case) and none of the MEDS keywords is classified WATER with
    confidence 0.98 and [risk_flag] false. *)
Theorem predict_category_water_only
    (req : PredictionRequest) (w : World) :
  mentions_any ["water"; "bottle"; "drink"] (text_description req) ->
  ~ mentions_any ["pill"; "drug"; "medicine"; "bandage"]
      (text_description req) ->
  let r := returned (predict_category req) w in
  dict_get "category" r = Some (VStr "WATER")
  /\ dict_get "confidence" r = Some (VFloat (98 # 100))
  /\ dict_get "risk_flag" r = Some (VBool false).
Proof.
  intros Hw _ r. subst r. unfold returned.
  rewrite predict_category_water by exact Hw. repeat split; reflexivity.
Qed.

Lemma predict_category_water_only_witness :
  let req := {| text_description := "Energy DRINK, 24 cans";
                image_base64 := None |} in
  let r := returned (predict_category req) quiet in
  dict_get "category" r = Some (VStr "WATER")
  /\ dict_get "confidence" r = Some (VFloat (98 # 100))
  /\ dict_get "risk_flag" r = Some (VBool false).
Proof.
  apply (predict_category_water_only
           {| text_description := "Energy DRINK, 24 cans";
              image_base64 := None |} quiet).
  - exists "drink". split; [simpl; tauto |].
    exists "Energy ", "DRINK", ", 24 cans". split; reflexivity.
  - intros H. apply any_contains_iff in H. vm_compute in H. discriminate H.
Defined.

(** C5.  A description that mentions "pill", "drug", "medicine" or
    "bandage" (in any case) and none of the WATER keywords is classified
    MEDS with confidence 0.92 and [risk_flag] true, and its [risk_reason]
    is the non-empty text "Medical items require expiry check.". *)
Theorem predict_category_meds_only
    (req : PredictionRequest) (w : World) :
  mentions_any ["pill"; "drug"; "medicine"; "bandage"] (text_description req) ->
  ~ mentions_any ["water"; "bottle"; "drink"] (text_description req) ->
  let r := returned (predict_category req) w in
  dict_get "category" r = Some (VStr "MEDS")
  /\ dict_get "confidence" r = Some (VFloat (92 # 100))
  /\ dict_get "risk_flag" r = Some (VBool true)
  /\ dict_get "risk_reason" r
     = Some (VStr "Medical items require expiry check.")
  /\ "Medical items require expiry check." <> "".
Proof.
  intros Hm Hw r. subst r. unfold returned.
  rewrite predict_category_meds by assumption.
  repeat split; try reflexivity. discriminate.
Qed.

Lemma predict_category_meds_only_witness :
  let req := {| text_description := "Sterile Bandage roll";
                image_base64 := Some "aGVsbG8=" |} in
  let r := returned (predict_category req) quiet in
  dict_get "category" r = Some (VStr "MEDS")
  /\ dict_get "confidence" r = Some (VFloat (92 # 100))
  /\ dict_get "risk_flag" r = Some (VBool true)
  /\ dict_get "risk_reason" r
     = Some (VStr "Medical items require expiry check.")
  /\ "Medical items require expiry check." <> "".
Proof.
  apply (predict_category_meds_only
           {| text_description := "Sterile Bandage roll";
              image_base64 := Some "aGVsbG8=" |} quiet).
  - exists "bandage". split; [simpl; tauto |].
    exists "Sterile ", "Bandage", " roll". split; reflexivity.
  - intros H. apply any_contains_iff in H. vm_compute in H. discriminate H.
Defined.

(** C6.  A description that mentions no WATER keyword and no MEDS keyword
    (in any case) is classified OTHER with confidence 0.45 and
    [risk_flag] false. *)
Theorem predict_category_no_keyword
    (req : PredictionRequest) (w : World) :
  ~ mentions_any ["water"; "bottle"; "drink"] (text_description req) ->
  ~ mentions_any ["pill"; "drug"; "medicine"; "bandage"]
      (text_description req) ->
  let r := returned (predict_category req) w in
  dict_get "category" r = Some (VStr "OTHER")
  /\ dict_get "confidence" r = Some (VFloat (45 # 100))
  /\ dict_get "risk_flag" r = Some (VBool false).
Proof.
  intros Hw Hm r. subst r. unfold returned.
  rewrite predict_category_other by assumption. repeat split; reflexivity.
Qed.

Lemma predict_category_no_keyword_witness :
  let req := {| text_description := "Rice, 5 kg bag";
                image_base64 := None |} in
  let r := returned (predict_category req) quiet in
  dict_get "category" r = Some (VStr "OTHER")
  /\ dict_get "confidence" r = Some (VFloat (45 # 100))
  /\ dict_get "risk_flag" r = Some (VBool false).
Proof.
  apply (predict_category_no_keyword
           {| text_description := "Rice, 5 kg bag";
              image_base64 := None |} quiet);
    intros H; apply any_contains_iff in H; vm_compute in H; discriminate H.
Defined.

(** C7.  The answer of [predict_category] is a function of the
    [text_description] alone: two requests with the same description get
    the same answer whatever their [image_base64] and whatever the state
    of the process, and the handler leaves that state untouched. *)
Theorem predict_category_pure
    (desc : string) (img1 img2 : option string) (w1 w2 : World) :
  let req1 := {| text_description := desc; image_base64 := img1 |} in
  let req2 := {| text_description := desc; image_base64 := img2 |} in
  returned (predict_category req1) w1 = returned (predict_category req2) w2
  /\ final (predict_category req1) w1 = w1
  /\ final (predict_category req2) w2 = w2.
Proof.
  intros req1 req2. unfold returned, final.
  unfold predict_category; simpl text_description.
  destruct (any _ WATER_KEYWORDS); [now repeat split |].
  destruct (any _ MEDS_KEYWORDS); now repeat split.
Qed.

(** By contrast the feedback handler does write: the model of the process
    state tells the two apart. *)
Lemma log_feedback_prints
    (model_str : FeedbackRequest -> string) (req : FeedbackRequest)
    (w : World) :
  log_feedback model_str req w
  = ([("status", VStr "logged")],
     mkWorld (stdout w ++ [("Feedback Received: " ++ model_str req)%string])).
Proof. reflexivity. Qed.

Lemma log_feedback_changes_state
    (model_str : FeedbackRequest -> string) (req : FeedbackRequest)
    (w : World) :
  final (log_feedback model_str req) w <> w.
Proof.
  unfold final. rewrite log_feedback_prints. simpl. destruct w as [out].
  intros H. injection H as H. apply (f_equal (@List.length string)) in H.
  rewrite length_app in H. simpl in H. lia.
Qed.

(** C10.  Whenever [predict_category] answers WATER, the explanation is
    the fixed text "Detected keyword 'water' in description.", also when
    the description only mentions "bottle" or "drink". *)
Theorem predict_category_water_explanation
    (req : PredictionRequest) (w : World) :
  dict_get "category" (returned (predict_category req) w)
  = Some (VStr "WATER") ->
  dict_get "explanation" (returned (predict_category req) w)
  = Some (VStr "Detected keyword 'water' in description.").
Proof.
  unfold returned.
  destruct (predict_category_cases req w) as [H | [H | H]]; rewrite H; simpl.
  - reflexivity.
  - discriminate.
  - discriminate.
Qed.

Lemma predict_category_water_explanation_witness :
  let req := {| text_description := "Plastic BOTTLE, 1.5 L";
                image_base64 := None |} in
  Str.contains "water" (Str.lower (text_description req)) = false
  /\ dict_get "explanation" (returned (predict_category req) quiet)
     = Some (VStr "Detected keyword 'water' in description.").
Proof.
  split; [reflexivity |].
  apply (predict_category_water_explanation
           {| text_description := "Plastic BOTTLE, 1.5 L";
              image_base64 := None |} quiet).
  reflexivity.
Defined.

(** ** The route placeholder *)

(** C2.  For every route request, [optimize_route] answers with exactly
    the five fixed fields [route_id = "route-123"],
    [waypoints_order = [0, 2, 1, 3]], [total_distance_km = 45.2],
    [estimated_time_min = 120] and an explanation that cites
    "Sector 4 (Red Zone)"; the answer is the same for any other request. *)
Theorem optimize_route_fixed (req : RouteRequest) (w : World) :
  let r := returned (optimize_route req) w in
  map fst r = ["route_id"; "waypoints_order"; "total_distance_km";
               "estimated_time_min"; "explanation"]
  /\ dict_get "route_id" r = Some (VStr "route-123")
  /\ dict_get "waypoints_order" r
     = Some (VList [VInt 0; VInt 2; VInt 1; VInt 3])
  /\ dict_get "total_distance_km" r = Some (VFloat (452 # 10))
  /\ dict_get "estimated_time_min" r = Some (VInt 120)
  /\ (exists e, dict_get "explanation" r = Some (VStr e)
               /\ Str.contains "Sector 4 (Red Zone)" e = true)
  /\ final (optimize_route req) w = w
  /\ forall req' w', returned (optimize_route req') w' = r.
Proof.
  intros r. subst r. unfold returned, final. simpl.
  repeat split; try reflexivity.
  eexists. split; reflexivity.
Qed.

(** C3, as the code has it.  The visiting order of every route result is
    [0, 2, 1, 3]; it is a permutation of the indices of the request's
    locations exactly when the request has four locations. *)
Theorem optimize_route_waypoints (req : RouteRequest) (w : World) :
  waypoints_order (returned (optimize_route req) w) = Some [0; 2; 1; 3]%Z
  /\ (Permutation [0; 2; 1; 3]%Z (indices (List.length (locations req)))
      <-> List.length (locations req) = 4).
Proof.
  split; [reflexivity |]. split.
  - intros H. apply Permutation_length in H.
    unfold indices in H. rewrite length_map, length_seq in H.
    simpl in H. now symmetry.
  - intros ->. unfold indices. simpl.
    apply perm_skip. apply perm_swap.
Qed.

(** C3 fails as stated: with two locations the order [0, 2, 1, 3] is not a
    permutation of the indices 0 and 1. *)
Lemma optimize_route_waypoints_not_permutation :
  let req := {| locations := [[VFloat (137 # 10); VFloat (1005 # 10)];
                              [VFloat (139 # 10); VFloat (1002 # 10)]];
                constraints := [("avoid", VStr "Sector 4")] |} in
  exists order,
    waypoints_order (returned (optimize_route req) quiet) = Some order
    /\ ~ Permutation order (indices (List.length (locations req))).
Proof.
  exists [0; 2; 1; 3]%Z. split; [reflexivity |].
  intros H. apply Permutation_length in H. discriminate H.
Qed.

(** ** Rejection at the request boundary *)

Section Rejection.

Import Boundary.

Lemma serve_rejects {A : Type} (parse : value -> Validated A)
    (handler : A -> IO dict) (body : value) (errors : list ValidationError)
    (w : World) :
  parse body = inl errors ->
  serve parse handler body w = (Unprocessable errors, w).
Proof. intros H. unfold serve. now rewrite H. Qed.

Lemma both_left {A B : Type} (e : list ValidationError) (y : Validated B) :
  exists e', @both A B (inl e) y = inl (e ++ e').
Proof.
  destruct y as [e2 | b]; simpl.
  - now exists e2.
  - exists []. now rewrite app_nil_r.
Qed.

Lemma both_right {A B : Type} (x : Validated A) (e : list ValidationError) :
  exists e', @both A B x (inl e) = inl (e' ++ e).
Proof.
  destruct x as [e1 | a]; simpl.
  - now exists e1.
  - now exists [].
Qed.

(** A body without a text [text_description] does not validate. *)
Lemma parse_PredictionRequest_rejects (body : value) :
  (forall s, body_field "text_description" body <> Some (VStr s)) ->
  exists errors,
    parse_PredictionRequest body = inl errors
    /\ (In (Missing "text_description") errors
        \/ In (WrongType "text_description") errors
        \/ In (WrongType "body") errors).
Proof.
  intros H.
  destruct body as [| b | z | q | s | l | d];
    try (exists [WrongType "body"]; split;
         [reflexivity | right; right; simpl; tauto]).
  simpl in H. unfold parse_PredictionRequest.
  assert (Hf : field "text_description" as_str None d
               = inl [Missing "text_description"]
               \/ field "text_description" as_str None d
                  = inl [WrongType "text_description"]).
  { unfold field. destruct (dict_get "text_description" d) as [v |].
    - right. destruct v; try reflexivity. now destruct (H s).
    - now left. }
  destruct Hf as [Hf | Hf]; rewrite Hf;
    match goal with
    | |- context [both (inl ?e) ?y] =>
        destruct (@both_left string (option string) e y) as [e' He]
    end;
    rewrite He; eexists; (split; [reflexivity |]); simpl; tauto.
Qed.

(** A JSON object without [constraints] does not validate. *)
Lemma parse_RouteRequest_rejects (d : dict) :
  dict_get "constraints" d = None ->
  exists errors,
    parse_RouteRequest (VDict d) = inl errors
    /\ In (Missing "constraints") errors.
Proof.
  intros H. unfold parse_RouteRequest.
  assert (Hf : field "constraints" as_dict None d
               = inl [Missing "constraints"]).
  { unfold field. now rewrite H. }
  rewrite Hf.
  match goal with
  | |- context [both ?x (inl ?e)] =>
      destruct (@both_right (list (list value)) dict x e) as [e' He]
  end.
  rewrite He. eexists. split; [reflexivity |].
  apply in_or_app. right. simpl. tauto.
Qed.

End Rejection.

(** C8.  A [POST /predict/category] request whose body has no
    [text_description], or has one that is not text, is answered with a
    client validation error (status 422) that names the offending field.
    The answer is decided before any handler runs: it is the same for
    every handler, it is neither a server error nor a prediction, and the
    process state is unchanged. *)
Theorem post_predict_category_rejects (body : value) (w : World) :
  (forall s, Boundary.body_field "text_description" body <> Some (VStr s)) ->
  exists errors,
    Boundary.post_predict_category body w = (Boundary.Unprocessable errors, w)
    /\ (In (Boundary.Missing "text_description") errors
        \/ In (Boundary.WrongType "text_description") errors
        \/ In (Boundary.WrongType "body") errors)
    /\ Boundary.status_code (returned (Boundary.post_predict_category body) w)
       = 422
    /\ returned (Boundary.post_predict_category body) w
       <> Boundary.ServerError
    /\ (forall r, returned (Boundary.post_predict_category body) w
                  <> Boundary.Ok r)
    /\ (forall handler,
          Boundary.serve Boundary.parse_PredictionRequest handler body w
          = (Boundary.Unprocessable errors, w)).
Proof.
  intros H.
  destruct (parse_PredictionRequest_rejects body H) as [errors [Hp Hin]].
  exists errors.
  assert (Hs : forall handler,
             Boundary.serve Boundary.parse_PredictionRequest handler body w
             = (Boundary.Unprocessable errors, w))
    by (intros handler; now apply serve_rejects).
  unfold returned, Boundary.post_predict_category. rewrite Hs. simpl.
  repeat split; try assumption; try reflexivity; discriminate.
Qed.

Lemma post_predict_category_rejects_witness :
  exists errors,
    Boundary.post_predict_category
      (VDict [("image_base64", VStr "aGVsbG8=")]) busy
    = (Boundary.Unprocessable errors, busy)
    /\ In (Boundary.Missing "text_description") errors.
Proof.
  destruct (post_predict_category_rejects
              (VDict [("image_base64", VStr "aGVsbG8=")]) busy)
    as [errors [Hrun _]].
  - intros s. simpl. discriminate.
  - exists errors. split; [exact Hrun |].
    vm_compute in Hrun. injection Hrun as <-. simpl. tauto.
Defined.

(** C9.  A [POST /optimize/route] request whose body is an object without
    a [constraints] field is answered with a validation error (status 422)
    that reports the missing [constraints], whether or not [locations] is
    present and well-formed: the schema declares [constraints] without a
    default. *)
Theorem post_optimize_route_requires_constraints (d : dict) (w : World) :
  dict_get "constraints" d = None ->
  exists errors,
    Boundary.post_optimize_route (VDict d) w
    = (Boundary.Unprocessable errors, w)
    /\ In (Boundary.Missing "constraints") errors
    /\ Boundary.status_code
         (returned (Boundary.post_optimize_route (VDict d)) w) = 422.
Proof.
  intros H.
  destruct (parse_RouteRequest_rejects d H) as [errors [Hp Hin]].
  exists errors.
  unfold returned, Boundary.post_optimize_route.
  rewrite (serve_rejects _ _ _ _ _ Hp). simpl. now repeat split.
Qed.

Lemma post_optimize_route_requires_constraints_witness :
  exists errors,
    Boundary.post_optimize_route
      (VDict [("locations", VList [VList [VInt 1; VInt 2];
                                    VList [VInt 3; VInt 4]])]) quiet
    = (Boundary.Unprocessable errors, quiet)
    /\ In (Boundary.Missing "constraints") errors
    /\ Boundary.status_code
         (returned
            (Boundary.post_optimize_route
               (VDict [("locations", VList [VList [VInt 1; VInt 2];
                                             VList [VInt 3; VInt 4]])]))
            quiet) = 422.
Proof.
  apply (post_optimize_route_requires_constraints
           [("locations", VList [VList [VInt 1; VInt 2];
                                  VList [VInt 3; VInt 4]])] quiet).
  reflexivity.
Defined.


(** ** More on the classifier *)

Section StrMore.

Import Str.

Lemma string_app_assoc (a b c : string) :
  ((a ++ b) ++ c = a ++ (b ++ c))%string.
Proof. induction a as [|x a IH]; simpl; [reflexivity | now rewrite IH]. Qed.

Lemma string_length_app (a b : string) :
  String.length (a ++ b) = String.length a + String.length b.
Proof. induction a as [|x a IH]; simpl; [reflexivity | now rewrite IH]. Qed.

(** A mentioned keyword is no longer than the description. *)
Lemma mentions_length (kw desc : string) :
  mentions kw desc -> String.length kw <= String.length desc.
Proof.
  intros [pre [mid [post [-> <-]]]].
  rewrite lower_length, !string_length_app. lia.
Qed.

(** A mention survives when text is put before and after. *)
Lemma mentions_embed (kw pre desc post : string) :
  mentions kw desc -> mentions kw (pre ++ desc ++ post)%string.
Proof.
  intros [a [m [b [-> Hm]]]].
  exists (pre ++ a)%string, m, (b ++ post)%string. split; [| exact Hm].
  now rewrite !string_app_assoc.
Qed.

Lemma mentions_any_embed (kws : list string) (pre desc post : string) :
  mentions_any kws desc -> mentions_any kws (pre ++ desc ++ post)%string.
Proof.
  intros [kw [Hin H]]. exists kw. split; [exact Hin |].
  now apply mentions_embed.
Qed.

Lemma lower_char_idem (c : ascii) : lower_char (lower_char c) = lower_char c.
Proof.
  destruct c as [b0 b1 b2 b3 b4 b5 b6 b7].
  destruct b0, b1, b2, b3, b4, b5, b6, b7; reflexivity.
Qed.

Lemma lower_idem (s : string) : lower (lower s) = lower s.
Proof.
  induction s as [|c s IH]; simpl; [reflexivity |].
  now rewrite lower_char_idem, IH.
Qed.

Lemma same_letter_lower (a b : ascii) :
  same_letter a b = true -> lower_char a = lower_char b.
Proof.
  unfold same_letter. rewrite !orb_true_iff, !Ascii.eqb_eq.
  intros [[H | H] | H]; subst.
  - reflexivity.
  - now rewrite lower_char_idem.
  - now rewrite lower_char_idem.
Qed.

Lemma same_up_to_case_lower (s t : string) :
  same_up_to_case s t = true -> lower s = lower t.
Proof.
  revert t; induction s as [|a s IH]; intros [|b t]; simpl;
    try reflexivity; try discriminate.
  rewrite andb_true_iff. intros [Hab Hst].
  now rewrite (same_letter_lower _ _ Hab), (IH _ Hst).
Qed.

Lemma same_up_to_case_lower_self (s : string) :
  same_up_to_case s (lower s) = true.
Proof.
  induction s as [|a s IH]; simpl; [reflexivity |].
  rewrite IH, andb_true_r. unfold same_letter.
  now rewrite (Ascii.eqb_refl (lower_char a)), orb_true_r.
Qed.

End StrMore.

(** The handler's decision, with the reason for it. *)
Lemma predict_category_decides (req : PredictionRequest) (w : World) :
  (mentions_any WATER_KEYWORDS (text_description req)
   /\ predict_category req w = (WATER_RESULT, w))
  \/ (~ mentions_any WATER_KEYWORDS (text_description req)
      /\ mentions_any MEDS_KEYWORDS (text_description req)
      /\ predict_category req w = (MEDS_RESULT, w))
  \/ (~ mentions_any WATER_KEYWORDS (text_description req)
      /\ ~ mentions_any MEDS_KEYWORDS (text_description req)
      /\ predict_category req w = (OTHER_RESULT, w)).
Proof.
  pose proof (any_contains_iff WATER_KEYWORDS (text_description req)) as Iw.
  pose proof (any_contains_iff MEDS_KEYWORDS (text_description req)) as Im.
  destruct (any (fun k => Str.contains k (Str.lower (text_description req)))
                WATER_KEYWORDS) eqn:Ew.
  - left. split; [now apply Iw |]. apply predict_category_water. now apply Iw.
  - assert (Hw : ~ mentions_any WATER_KEYWORDS (text_description req))
      by (intros H; apply Iw in H; discriminate H).
    destruct (any (fun k => Str.contains k (Str.lower (text_description req)))
                  MEDS_KEYWORDS) eqn:Em.
    + right; left. split; [exact Hw |].
      split; [now apply Im |]. apply predict_category_meds; [exact Hw |].
      now apply Im.
    + assert (Hm : ~ mentions_any MEDS_KEYWORDS (text_description req))
        by (intros H; apply Im in H; discriminate H).
      right; right. split; [exact Hw |]. split; [exact Hm |].
      now apply predict_category_other.
Qed.

(** X1.  The category of the answer is decided exactly by the keywords the
    description mentions: WATER if and only if it mentions "water",
    "bottle" or "drink"; MEDS if and only if it mentions none of those and
    mentions "pill", "drug", "medicine" or "bandage"; OTHER if and only if
    it mentions none of the seven. *)
Theorem predict_category_characterised (req : PredictionRequest) (w : World) :
  let c := category_of (returned (predict_category req) w) in
  let water := mentions_any ["water"; "bottle"; "drink"]
                 (text_description req) in
  let meds := mentions_any ["pill"; "drug"; "medicine"; "bandage"]
                (text_description req) in
  (c = Some (VStr "WATER") <-> water)
  /\ (c = Some (VStr "MEDS") <-> ~ water /\ meds)
  /\ (c = Some (VStr "OTHER") <-> ~ water /\ ~ meds).
Proof.
  intros c water meds. subst c water meds. unfold returned.
  fold WATER_KEYWORDS MEDS_KEYWORDS.
  destruct (predict_category_decides req w)
    as [[Hw E] | [[Hw [Hm E]] | [Hw [Hm E]]]];
    rewrite E; unfold category_of; simpl;
    repeat split; intros; try discriminate; try tauto.
Qed.

(** X2.  An answer carries a [risk_reason] exactly when its [risk_flag] is
    true, and that is exactly when the category is MEDS; every other
    answer has [risk_flag] false and no [risk_reason] key at all. *)
Theorem predict_category_risk_reason (req : PredictionRequest) (w : World) :
  let r := returned (predict_category req) w in
  (category_of r = Some (VStr "MEDS")
   /\ dict_get "risk_flag" r = Some (VBool true)
   /\ dict_get "risk_reason" r
      = Some (VStr "Medical items require expiry check."))
  \/ (category_of r <> Some (VStr "MEDS")
      /\ dict_get "risk_flag" r = Some (VBool false)
      /\ dict_get "risk_reason" r = None).
Proof.
  intros r. subst r. unfold returned.
  destruct (predict_category_cases req w) as [E | [E | E]]; rewrite E;
    unfold category_of; simpl.
  - right. repeat split; [discriminate].
  - left. repeat split.
  - right. repeat split; [discriminate].
Qed.

(** X3.  Every answer has a category among WATER, MEDS and OTHER, a
    confidence between 0 and 1, a non-empty explanation and a boolean
    [risk_flag]; only the fallback answer OTHER has a confidence below
    one half. *)
Theorem predict_category_shape (req : PredictionRequest) (w : World) :
  let r := returned (predict_category req) w in
  exists (c e : string) (q : Q) (b : bool),
    dict_get "category" r = Some (VStr c)
    /\ In c ["WATER"; "MEDS"; "OTHER"]
    /\ dict_get "confidence" r = Some (VFloat q)
    /\ (0 <= q)%Q /\ (q <= 1)%Q
    /\ ((q < 1 # 2)%Q <-> c = "OTHER")
    /\ dict_get "explanation" r = Some (VStr e)
    /\ e <> ""
    /\ dict_get "risk_flag" r = Some (VBool b).
Proof.
  intros r. subst r. unfold returned.
  destruct (predict_category_cases req w) as [E | [E | E]]; rewrite E.
  - exists "WATER", "Detected keyword 'water' in description.",
      (98 # 100)%Q, false.
    simpl. repeat split; try discriminate; auto.
  - exists "MEDS", "Detected medical terminology.", (92 # 100)%Q, true.
    simpl. repeat split; try discriminate; auto.
  - exists "OTHER",
      "No strong keywords found. Manual review recommended.",
      (45 # 100)%Q, false.
    simpl. repeat split; try discriminate; auto.
Qed.

(** X4.  The classifier ignores the case of letters: two descriptions
    that are the same up to case, character by character, get the same
    answer, whatever their [image_base64]. *)
Theorem predict_category_ignores_case
    (d1 d2 : string) (img1 img2 : option string) (w : World) :
  same_up_to_case d1 d2 = true ->
  returned (predict_category
              {| text_description := d1; image_base64 := img1 |}) w
  = returned (predict_category
                {| text_description := d2; image_base64 := img2 |}) w.
Proof.
  intros H. apply same_up_to_case_lower in H.
  unfold returned.
  cbv beta zeta iota delta [predict_category text_description].
  now rewrite H.
Qed.

Lemma predict_category_ignores_case_witness :
  returned (predict_category
              {| text_description := "Bottled WATER, 6 x 1.5L";
                 image_base64 := None |}) quiet
  = returned (predict_category
                {| text_description := "bOTTLED water, 6 X 1.5l";
                   image_base64 := Some "aGVsbG8=" |}) quiet.
Proof.
  apply (predict_category_ignores_case
           "Bottled WATER, 6 x 1.5L" "bOTTLED water, 6 X 1.5l"
           None (Some "aGVsbG8=") quiet).
  reflexivity.
Defined.

(** X5.  Putting the description in lower case before the call changes
    nothing: the answer for [desc.lower()] is the answer for [desc]. *)
Theorem predict_category_lowered
    (desc : string) (img : option string) (w : World) :
  predict_category
    {| text_description := Str.lower desc; image_base64 := img |} w
  = predict_category {| text_description := desc; image_base64 := img |} w.
Proof.
  cbv beta zeta iota delta [predict_category text_description].
  now rewrite lower_idem.
Qed.

(** X6.  Keywords are matched anywhere in the text, not as words.  When
    text is put before and after a description, a WATER answer stays
    WATER, and an answer other than OTHER never becomes OTHER (a MEDS
    answer stays MEDS or becomes WATER). *)
Theorem predict_category_embedding
    (pre desc post : string) (img img' : option string) (w : World) :
  let small := returned (predict_category
                 {| text_description := desc; image_base64 := img |}) w in
  let big := returned (predict_category
               {| text_description := (pre ++ desc ++ post)%string;
                  image_base64 := img' |}) w in
  (category_of small = Some (VStr "WATER") ->
   category_of big = Some (VStr "WATER"))
  /\ (category_of small = Some (VStr "MEDS") ->
      category_of big = Some (VStr "MEDS")
      \/ category_of big = Some (VStr "WATER"))
  /\ (category_of big = Some (VStr "OTHER") ->
      category_of small = Some (VStr "OTHER")).
Proof.
  intros small big. subst small big. unfold returned.
  destruct (predict_category_decides
              {| text_description := desc; image_base64 := img |} w)
    as [[Hw E] | [[Hw [Hm E]] | [Hw [Hm E]]]];
    destruct (predict_category_decides
                {| text_description := (pre ++ desc ++ post)%string;
                   image_base64 := img' |} w)
      as [[Hw' E'] | [[Hw' [Hm' E']] | [Hw' [Hm' E']]]];
    simpl text_description in *;
    rewrite E, E'; unfold category_of; simpl;
    repeat split; intros; try discriminate; auto;
    exfalso;
    try (apply Hw'; now apply mentions_any_embed);
    try (apply Hm'; now apply mentions_any_embed).
Qed.

(** X7.  A description of fewer than four characters, the empty one
    included, is always classified OTHER with confidence 0.45: no keyword
    is shorter than four letters. *)
Theorem predict_category_short (req : PredictionRequest) (w : World) :
  String.length (text_description req) < 4 ->
  let r := returned (predict_category req) w in
  dict_get "category" r = Some (VStr "OTHER")
  /\ dict_get "confidence" r = Some (VFloat (45 # 100)).
Proof.
  intros Hlen r. subst r. unfold returned.
  assert (Hno : forall kws,
             Forall (fun kw => 4 <= String.length kw) kws ->
             ~ mentions_any kws (text_description req)).
  { intros kws Hall [kw [Hin H]].
    apply mentions_length in H.
    rewrite Forall_forall in Hall. specialize (Hall kw Hin). lia. }
  rewrite predict_category_other.
  - split; reflexivity.
  - apply Hno. repeat constructor.
  - apply Hno. repeat constructor.
Qed.

Lemma predict_category_short_witness :
  let r := returned (predict_category
                       {| text_description := ""; image_base64 := None |})
                    busy in
  dict_get "category" r = Some (VStr "OTHER")
  /\ dict_get "confidence" r = Some (VFloat (45 # 100)).
Proof.
  apply (predict_category_short
           {| text_description := ""; image_base64 := None |} busy).
  simpl. lia.
Defined.

(** ** The service over a sequence of calls *)

Section AppFacts.

Variable model_str : FeedbackRequest -> string.

(** Only the feedback handler writes, and it writes one line. *)
Lemma handle_stdout (c : Call) (w : World) :
  stdout (final (handle model_str c) w)
  = stdout w
    ++ map (fun r => ("Feedback Received: " ++ model_str r)%string)
           (feedbacks [c]).
Proof.
  destruct c as [| req | req | req]; unfold final;
    cbn [handle feedbacks map].
  - now rewrite app_nil_r.
  - destruct (predict_category_cases req w) as [E | [E | E]]; rewrite E;
      now rewrite app_nil_r.
  - reflexivity.
  - now rewrite app_nil_r.
Qed.

(** The answer of a handler does not depend on the process state. *)
Lemma handle_returned (c : Call) (w w' : World) :
  returned (handle model_str c) w = returned (handle model_str c) w'.
Proof.
  destruct c as [| req | req | req]; unfold returned; cbn [handle];
    try reflexivity.
  destruct (predict_category_cases req w) as [E | [E | E]];
    destruct (predict_category_cases req w') as [E' | [E' | E']];
    rewrite E, E'; try reflexivity;
    (* the two runs take the same branch *)
    exfalso; revert E E'; unfold predict_category;
    destruct (any _ WATER_KEYWORDS); try discriminate;
    destruct (any _ MEDS_KEYWORDS); discriminate.
Qed.

Lemma handle_all_cons (c : Call) (cs : list Call) (w : World) :
  handle_all model_str (c :: cs) w
  = (returned (handle model_str c) w
       :: returned (handle_all model_str cs) (final (handle model_str c) w),
     final (handle_all model_str cs) (final (handle model_str c) w)).
Proof.
  unfold returned, final. simpl. unfold bind, ret.
  destruct (handle model_str c w) as [r w1]. simpl.
  destruct (handle_all model_str cs w1) as [rs w2]. reflexivity.
Qed.

End AppFacts.

(** X8.  After the service has answered any sequence of calls, its
    standard output is what it was before followed by one line
    "Feedback Received: ..." per feedback call, in the order of the calls;
    the health, classification and route handlers write nothing.  Every
    call is answered. *)
Theorem handle_all_stdout
    (model_str : FeedbackRequest -> string) (cs : list Call) (w : World) :
  stdout (final (handle_all model_str cs) w)
  = stdout w
    ++ map (fun r => ("Feedback Received: " ++ model_str r)%string)
           (feedbacks cs)
  /\ List.length (returned (handle_all model_str cs) w) = List.length cs.
Proof.
  revert w; induction cs as [|c cs IH]; intros w.
  - split; [simpl; now rewrite app_nil_r | reflexivity].
  - unfold final, returned. rewrite handle_all_cons. simpl fst; simpl snd.
    destruct (IH (final (handle model_str c) w)) as [IHout IHlen].
    split.
    + rewrite IHout, handle_stdout.
      rewrite <- app_assoc, <- map_app. now destruct c.
    + simpl. now rewrite IHlen.
Qed.

(** X9.  The service keeps no state between requests that an answer
    could depend on: in any sequence of calls, each call gets the answer
    it would get as the first call of a fresh process. *)
Theorem handle_all_stateless
    (model_str : FeedbackRequest -> string) (cs : list Call) (w : World) :
  returned (handle_all model_str cs) w
  = map (fun c => returned (handle model_str c) quiet) cs.
Proof.
  revert w; induction cs as [|c cs IH]; intros w.
  - reflexivity.
  - unfold returned at 1. rewrite handle_all_cons. simpl fst.
    rewrite IH. simpl. f_equal. apply handle_returned.
Qed.

(** X10.  The fixed visiting order names the location index 3 and no
    index above it: a request with fewer than four locations gets an order
    that refers to a location it does not have, and a request with more
    than four gets an order that leaves its location 4 out. *)
Theorem optimize_route_waypoints_range (req : RouteRequest) (w : World) :
  exists order,
    waypoints_order (returned (optimize_route req) w) = Some order
    /\ (List.length (locations req) < 4 ->
        In 3%Z order /\ ~ In 3%Z (indices (List.length (locations req))))
    /\ (4 < List.length (locations req) ->
        ~ In 4%Z order /\ In 4%Z (indices (List.length (locations req)))).
Proof.
  exists [0; 2; 1; 3]%Z. split; [reflexivity |].
  unfold indices. split; intros Hlen; split.
  - simpl. tauto.
  - rewrite in_map_iff. intros [n [Hn Hin]]. apply in_seq in Hin. lia.
  - simpl. intros [H | [H | [H | [H | []]]]]; discriminate H.
  - rewrite in_map_iff. exists 4. split; [reflexivity |].
    apply in_seq. lia.
Qed.
